(** * The module descriptor of [sale_order_label_override]

    The repository holds one file,
    [custom-addons/sale_order_label_override/__manifest__.py], whose whole
    content is one Python dict display.  The host's module loader reads it
    by evaluating that expression.  This development embeds the values the
    display denotes, the expression itself with an evaluator for the
    fragment of Python expressions it is written in, and proves the
    structural properties of the descriptor. *)

From Stdlib Require Import Ascii String.
From stdpp Require Import base strings list gmap fin_maps.

Open Scope string_scope.

Set Warnings "-register-all".

(** ** Strings *)

(** The vocabulary the properties of paths and version strings are stated
    in: Python's [str.split], [str.startswith] and [str.endswith], for the
    one-character separators that occur. *)
Module Str.

(** [s.split(sep)] for a separator of one character: the pieces between
    the occurrences of [sep], empty pieces kept, so the result is never
    empty. *)
Fixpoint split (sep : ascii) (s : string) : list string :=
  match s with
  | EmptyString => [EmptyString]
  | String a rest =>
      if decide (a = sep) then EmptyString :: split sep rest
      else match split sep rest with
           | piece :: pieces => String a piece :: pieces
           | [] => [String a EmptyString]
           end
  end.

(** [sep.join(pieces)]. *)
Fixpoint join (sep : ascii) (pieces : list string) : string :=
  match pieces with
  | [] => EmptyString
  | [piece] => piece
  | piece :: rest => piece +:+ String sep (join sep rest)
  end.

Definition chars (s : string) : list ascii := list_ascii_of_string s.

Definition startswith (s p : string) : bool := String.prefix p s.

Definition endswith (s p : string) : bool :=
  String.prefix (String.rev p) (String.rev s).

Definition is_digit (a : ascii) : bool := bool_decide (is_Some (Ascii.is_nat a)).

(** A non-empty run of decimal digits. *)
Definition is_numeral (s : string) : bool :=
  bool_decide (s ≠ EmptyString) && forallb is_digit (chars s).

End Str.

(** ** Values *)

(** The Python objects a manifest display can denote: [str], [bool], [list]
    and [dict] with [str] keys. *)
Inductive value : Type :=
  | VStr (s : string)
  | VBool (b : bool)
  | VList (items : list value)
  | VDict (d : gmap string value).

(** A dict display inserts its items from left to right; a key given twice
    keeps the value of its last occurrence. *)
Definition dict_of_items (items : list (string * value)) : gmap string value :=
  foldl (λ d kv, <[kv.1 := kv.2]> d) ∅ items.

(** ** The descriptor, as [__manifest__.py] writes it *)

Definition manifest_items : list (string * value) :=
  [ ("name", VStr "Sale Order Label Override");
    ("version", VStr "18.0.1.0.0");
    ("depends", VList [VStr "sale"; VStr "account"; VStr "mail"]);
    ("data", VList [
        VStr "views/sale_order_report.xml";
        VStr "views/quotation_template.xml";
        VStr "data/email_template_data.xml";
        VStr "views/email_layout_override.xml"
    ]);
    ("installable", VBool true) ].

Definition manifest : gmap string value := dict_of_items manifest_items.

(** The repository's descriptors, by module directory under
    [custom-addons/]. *)
Definition custom_addons : list (string * gmap string value) :=
  [ ("sale_order_label_override", manifest) ].

(** ** Reading attributes *)

Definition as_str (v : value) : option string :=
  match v with VStr s => Some s | _ => None end.

Definition as_bool (v : value) : option bool :=
  match v with VBool b => Some b | _ => None end.

Definition as_strs (v : value) : option (list string) :=
  match v with VList items => mapM as_str items | _ => None end.

Definition get_str (d : gmap string value) (k : string) : option string :=
  d !! k ≫= as_str.

Definition get_bool (d : gmap string value) (k : string) : option bool :=
  d !! k ≫= as_bool.

Definition get_strs (d : gmap string value) (k : string) : option (list string) :=
  d !! k ≫= as_strs.

(** The dot-separated components of the [version] attribute. *)
Definition version_components (d : gmap string value) : option (list string) :=
  Str.split "." <$> get_str d "version".

(** ** The expression and its evaluation *)

(** The fragment of Python expressions a manifest file may be written in:
    string and boolean constants, list and dict displays, and, so that
    evaluation can depend on and change its environment, names and calls. *)
Inductive expr : Type :=
  | EStr (s : string)
  | EBool (b : bool)
  | EList (elts : list expr)
  | EDict (items : list (expr * expr))
  | EName (id : string)
  | ECall (func : string) (args : list expr).

Inductive error : Type :=
  | NameError (id : string)
  | Unsupported
  | Raised (what : string).

(** What evaluation runs against: a state of the interpreter in which names
    are looked up, and which a call may change. *)
Class Runtime (world : Type) := {
  lookup_name : string → world → option value;
  call : string → list value → world → (error + value) * world
}.

Section Eval.
Context {world : Type} `{!Runtime world}.

(** Computations that read and change the state and may raise. *)
Definition M (A : Type) : Type := world → (error + A) * world.

Definition ret {A} (a : A) : M A := λ w, (inr a, w).

Definition raise {A} (e : error) : M A := λ w, (inl e, w).

Definition bind {A B} (m : M A) (f : A → M B) : M B :=
  λ w, match m w with
       | (inr a, w') => f a w'
       | (inl e, w') => (inl e, w')
       end.

Notation "x ←' m ;; k" := (bind m (λ x, k))
  (at level 100, m at next level, right associativity, only parsing).

(** Elements are evaluated from left to right; a dict display evaluates
    each key before its value.  Keys other than [str] are outside the
    fragment. *)
Fixpoint eval (e : expr) : M value :=
  match e with
  | EStr s => ret (VStr s)
  | EBool b => ret (VBool b)
  | EList elts =>
      vs ←' (fix eval_elts (es : list expr) : M (list value) :=
               match es with
               | [] => ret []
               | e :: es => v ←' eval e ;; vs ←' eval_elts es ;; ret (v :: vs)
               end) elts ;;
      ret (VList vs)
  | EDict items =>
      d ←' (fix eval_items (its : list (expr * expr)) (d : gmap string value)
              : M (gmap string value) :=
              match its with
              | [] => ret d
              | (k, v) :: its =>
                  kv ←' eval k ;;
                  vv ←' eval v ;;
                  match kv with
                  | VStr key => eval_items its (<[key := vv]> d)
                  | _ => raise Unsupported
                  end
              end) items ∅ ;;
      ret (VDict d)
  | EName id =>
      λ w, match lookup_name id w with
           | Some v => (inr v, w)
           | None => (inl (NameError id), w)
           end
  | ECall func args =>
      vs ←' (fix eval_elts (es : list expr) : M (list value) :=
               match es with
               | [] => ret []
               | e :: es => v ←' eval e ;; vs ←' eval_elts es ;; ret (v :: vs)
               end) args ;;
      call func vs
  end.

Definition eval_elts : list expr → M (list value) :=
  fix eval_elts (es : list expr) : M (list value) :=
    match es with
    | [] => ret []
    | e :: es => v ←' eval e ;; vs ←' eval_elts es ;; ret (v :: vs)
    end.

Definition eval_items : list (expr * expr) → gmap string value → M (gmap string value) :=
  fix eval_items (its : list (expr * expr)) (d : gmap string value) :=
    match its with
    | [] => ret d
    | (k, v) :: its =>
        kv ←' eval k ;;
        vv ←' eval v ;;
        match kv with
        | VStr key => eval_items its (<[key := vv]> d)
        | _ => raise Unsupported
        end
    end.

End Eval.

(** An expression built from constants and displays only. *)
Fixpoint is_literal (e : expr) : bool :=
  match e with
  | EStr _ | EBool _ => true
  | EList elts => forallb is_literal elts
  | EDict items => forallb (λ kv, is_literal kv.1 && is_literal kv.2) items
  | EName _ | ECall _ _ => false
  end.

(** The content of [__manifest__.py]. *)
Definition manifest_src : expr :=
  EDict [
    (EStr "name", EStr "Sale Order Label Override");
    (EStr "version", EStr "18.0.1.0.0");
    (EStr "depends", EList [EStr "sale"; EStr "account"; EStr "mail"]);
    (EStr "data", EList [
        EStr "views/sale_order_report.xml";
        EStr "views/quotation_template.xml";
        EStr "data/email_template_data.xml";
        EStr "views/email_layout_override.xml"
    ]);
    (EStr "installable", EBool true)
  ].

(** The runtime with no names and no callables, over a state with nothing
    in it. *)
#[export] Instance bare_runtime : Runtime unit := {
  lookup_name _ _ := None;
  call _ _ w := (inl Unsupported, w)
}.

(** What a literal evaluates to. *)
Definition literal_result (e : expr) : error + value := (eval e tt).1.

(** A computation that leaves the state alone and gives the result of its
    counterpart [m0] in the bare runtime. *)
Definition pure_as {world} {A} (m : M (world := world) A) (m0 : M (world := unit) A) : Prop :=
  ∀ w, m w = ((m0 tt).1, w).

(** Induction over expressions, with the hypothesis for every element of a
    display. *)
Section expr_induction.
Context (P : expr → Prop).
Context (HStr : ∀ s, P (EStr s)).
Context (HBool : ∀ b, P (EBool b)).
Context (HList : ∀ elts, Forall P elts → P (EList elts)).
Context (HDict : ∀ items, Forall (λ kv, P kv.1 ∧ P kv.2) items → P (EDict items)).
Context (HName : ∀ id, P (EName id)).
Context (HCall : ∀ func args, Forall P args → P (ECall func args)).

Fixpoint expr_induction (e : expr) : P e :=
  let all :=
    fix all (es : list expr) : Forall P es :=
      match es with
      | [] => @Stdlib.Lists.List.Forall_nil _ P
      | e :: es => @Stdlib.Lists.List.Forall_cons _ P e es (expr_induction e) (all es)
      end in
  match e with
  | EStr s => HStr s
  | EBool b => HBool b
  | EList elts => HList elts (all elts)
  | EDict items =>
      HDict items
        ((fix all_items (its : list (expr * expr))
            : Forall (λ kv, P kv.1 ∧ P kv.2) its :=
            match its with
            | [] => @Stdlib.Lists.List.Forall_nil _ _
            | (k, v) :: its =>
                @Stdlib.Lists.List.Forall_cons _ (λ kv, P kv.1 ∧ P kv.2) (k, v) its
                  (conj (expr_induction k) (expr_induction v)) (all_items its)
            end) items)
  | EName id => HName id
  | ECall func args => HCall func args (all args)
  end.
End expr_induction.

(** ** The descriptor's shape *)

(** The attribute types of the descriptor format. *)
Inductive attr_type : Type :=
  | TString
  | TBoolean
  | TRelPath
  | TSeq (elt : attr_type).

Definition is_relative (p : string) : bool := negb (Str.startswith p "/").

Fixpoint has_type (t : attr_type) (v : value) : bool :=
  match t, v with
  | TString, VStr _ => true
  | TBoolean, VBool _ => true
  | TRelPath, VStr p => is_relative p
  | TSeq elt, VList items => forallb (has_type elt) items
  | _, _ => false
  end.

(** The descriptor format: its attributes and the type of each. *)
Definition descriptor_schema : list (string * attr_type) :=
  [ ("name", TString);
    ("version", TString);
    ("depends", TSeq TString);
    ("data", TSeq TRelPath);
    ("installable", TBoolean) ].

(** [d] has the attributes of [schema], each of its type, and no other. *)
Definition conforms (d : gmap string value) (schema : list (string * attr_type)) : Prop :=
  dom d = list_to_set schema.*1 ∧
  ∀ k t, (k, t) ∈ schema → ∃ v, d !! k = Some v ∧ has_type t v = true.

Definition check_schema (d : gmap string value) (schema : list (string * attr_type)) : bool :=
  bool_decide (dom d = list_to_set schema.*1) &&
  forallb (λ kt, from_option (has_type kt.2) false (d !! kt.1)) schema.

(** [d]'s version has [n] dot-separated components. *)
Definition has_components (n : nat) (d : gmap string value) : Prop :=
  ∃ cs, version_components d = Some cs ∧ length cs = n.

Definition leading_two (d : gmap string value) : option (list string) :=
  take 2 <$> version_components d.

(** The version's leading two components are those of the version the host
    supports, [supported] being the host's own dotted version string. *)
Definition matches_host (supported : string) (d : gmap string value) : Prop :=
  leading_two d = Some (Str.split "." supported).

Definition has_nonempty_name (d : gmap string value) : Prop :=
  ∃ s, d !! "name" = Some (VStr s) ∧ s ≠ EmptyString.

(** A path of a resource file: not empty, separated by forward slashes
    only (it holds no backslash, the character of code 92), relative,
    never stepping to a parent directory, an XML file. *)
Definition resource_path (p : string) : Prop :=
  (p ≠ EmptyString) ∧
  ("092"%char ∉ Str.chars p) ∧
  (Str.startswith p "/" = false) ∧
  (".." ∉ Str.split "/" p) ∧
  (Str.endswith p ".xml" = true).

(** ** The host's side *)

(** What the host knows when it installs a module: the modules it can
    resolve and the files under the module's root. *)
Record host : Type := Host {
  catalog : gset string;
  files : gset string
}.

Inductive outcome : Type :=
  | Malformed
  | Refused
  | UnresolvedDependency (name : string)
  | MissingFile (path : string) (loaded : list string)
  | Loaded (paths : list string).

(** The resource files of [paths] in the listed order, after [loaded]: the
    first one missing stops the load. *)
Fixpoint load_files (h : host) (loaded paths : list string) : outcome :=
  match paths with
  | [] => Loaded loaded
  | p :: paths =>
      if decide (p ∈ files h) then load_files h (loaded ++ [p]) paths
      else MissingFile p loaded
  end.

(** Modelled from the spec: the host framework's module loader, which is no
    part of this repository.  It refuses a module whose [installable] is
    false, and then looks at neither [depends] nor [data]; otherwise it
    resolves every dependency before it touches a path of [data], and then
    loads the files of [data] in the listed order.  A descriptor whose
    attributes are missing or of another type is malformed. *)
Definition loader (h : host) (d : gmap string value) : outcome :=
  match get_bool d "installable" with
  | Some false => Refused
  | Some true =>
      match get_strs d "depends", get_strs d "data" with
      | Some depends, Some data =>
          match list_find (λ name, name ∉ catalog h) depends with
          | Some (_, name) => UnresolvedDependency name
          | None => load_files h [] data
          end
      | _, _ => Malformed
      end
  | None => Malformed
  end.

(** The resource files an outcome has loaded. *)
Definition loaded_files (o : outcome) : list string :=
  match o with
  | MissingFile _ loaded => loaded
  | Loaded paths => paths
  | Malformed | Refused | UnresolvedDependency _ => []
  end.

Inductive event : Type :=
  | Install
  | Upgrade
  | Uninstall
  | RemoveFromCodebase.

(** Modelled from the spec: the descriptor's lifecycle, driven by the host
    and the packaging process, which are no part of this repository.  The
    descriptor is defined ([Some d]) until it is destroyed ([None]);
    installing and upgrading read it, uninstalling and removing the module
    from the codebase destroy it, and no event writes it. *)
Definition lifecycle_step (st : option (gmap string value)) (ev : event)
    : option (gmap string value) :=
  match st, ev with
  | Some d, (Install | Upgrade) => Some d
  | Some _, (Uninstall | RemoveFromCodebase) => None
  | None, _ => None
  end.

Definition lifecycle (evs : list event) (st : option (gmap string value))
    : option (gmap string value) :=
  foldl lifecycle_step st evs.

(** [P] holds of the descriptor as long as it is defined. *)
Definition while_defined (P : gmap string value → Prop)
    (st : option (gmap string value)) : Prop :=
  match st with Some d => P d | None => True end.

(** * Proofs *)

(** Closes a decidable goal about closed terms by evaluation. *)
Ltac by_evaluation := apply (bool_decide_unpack _); vm_compute; exact I.

(** ** Splitting and joining *)

Lemma split_nonempty sep s : Str.split sep s ≠ [].
Proof.
  destruct s as [|a rest]; simpl; [done|].
  case_decide; [done|]. by destruct (Str.split sep rest).
Qed.

Lemma join_cons sep piece pieces :
  pieces ≠ [] →
  Str.join sep (piece :: pieces) = piece +:+ String sep (Str.join sep pieces).
Proof. by destruct pieces. Qed.

(** Joining the pieces of a split gives the string back. *)
Lemma join_split sep s : Str.join sep (Str.split sep s) = s.
Proof.
  induction s as [|a rest IH]; simpl; [done|].
  case_decide as Ha.
  - rewrite join_cons by apply split_nonempty. rewrite IH. by subst.
  - pose proof (split_nonempty sep rest) as Hne.
    destruct (Str.split sep rest) as [|piece pieces]; [done|].
    destruct pieces as [|piece' pieces].
    + simpl in *. by rewrite IH.
    + rewrite join_cons by done. rewrite join_cons in IH by done.
      by rewrite <-IH.
Qed.

(** No piece of a split holds the separator. *)
Lemma split_pieces sep s : Forall (λ piece, sep ∉ Str.chars piece) (Str.split sep s).
Proof.
  induction s as [|a rest IH]; simpl.
  - repeat constructor. unfold Str.chars. simpl. apply not_elem_of_nil.
  - case_decide as Ha.
    + constructor; [|done]. unfold Str.chars. simpl. apply not_elem_of_nil.
    + destruct (Str.split sep rest) as [|piece pieces].
      * repeat constructor. unfold Str.chars. simpl.
        apply not_elem_of_cons. split; [done|apply not_elem_of_nil].
      * inversion IH as [|?? Hpiece Hpieces]; subst. constructor; [|done].
        unfold Str.chars in *. simpl. by apply not_elem_of_cons.
Qed.

Lemma split_inj sep s1 s2 : Str.split sep s1 = Str.split sep s2 → s1 = s2.
Proof. intros H. by rewrite <-(join_split sep s1), <-(join_split sep s2), H. Qed.

(** ** Literals evaluate purely *)

Section Purity.
Context {world : Type} `{!Runtime world}.

Lemma eval_EList elts (w : world) :
  eval (EList elts) w = bind (eval_elts elts) (λ vs, ret (VList vs)) w.
Proof. reflexivity. Qed.

Lemma eval_EDict items (w : world) :
  eval (EDict items) w = bind (eval_items items ∅) (λ d, ret (VDict d)) w.
Proof. reflexivity. Qed.

Lemma eval_elts_cons e es (w : world) :
  eval_elts (e :: es) w
  = bind (eval e) (λ v, bind (eval_elts es) (λ vs, ret (v :: vs))) w.
Proof. reflexivity. Qed.

Lemma eval_items_cons k v its d (w : world) :
  eval_items ((k, v) :: its) d w
  = bind (eval k) (λ kv, bind (eval v) (λ vv,
      match kv with
      | VStr key => eval_items its (<[key := vv]> d)
      | _ => raise Unsupported
      end)) w.
Proof. reflexivity. Qed.

Lemma pure_as_bind {A B} (m : M (world := world) A) m0 (f : A → M B) f0 :
  pure_as m m0 → (∀ a, pure_as (f a) (f0 a)) → pure_as (bind m f) (bind m0 f0).
Proof.
  intros Hm Hf w. unfold bind. rewrite Hm.
  destruct (m0 tt) as [[e|a] []]; simpl; [done|]. apply Hf.
Qed.

Lemma pure_as_ret {A} (a : A) : pure_as (world := world) (ret a) (ret a).
Proof. done. Qed.

Lemma pure_as_raise {A} e : pure_as (world := world) (raise (A := A) e) (raise e).
Proof. done. Qed.

Lemma eval_elts_pure es :
  Forall (λ e, is_literal e = true → pure_as (eval e) (eval e)) es →
  forallb is_literal es = true →
  pure_as (eval_elts es) (eval_elts es).
Proof.
  induction 1 as [|e es He Hes IH]; intros Hlit; [apply pure_as_ret|].
  simpl in Hlit. apply andb_true_iff in Hlit as [Hl Hls].
  intros w. rewrite eval_elts_cons.
  apply (pure_as_bind (eval e) (eval e)); [by apply He|].
  intros v. apply pure_as_bind; [by apply IH|]. intros vs. apply pure_as_ret.
Qed.

Lemma eval_items_pure its :
  Forall (λ kv, (is_literal kv.1 = true → pure_as (eval kv.1) (eval kv.1)) ∧
                (is_literal kv.2 = true → pure_as (eval kv.2) (eval kv.2))) its →
  forallb (λ kv, is_literal kv.1 && is_literal kv.2) its = true →
  ∀ d, pure_as (eval_items its d) (eval_items its d).
Proof.
  induction 1 as [|[k v] its [Hk Hv] Hits IH]; intros Hlit d; [apply pure_as_ret|].
  simpl in Hlit. apply andb_true_iff in Hlit as [Hkv Hls].
  apply andb_true_iff in Hkv as [Hlk Hlv].
  intros w. rewrite eval_items_cons.
  apply (pure_as_bind (eval k) (eval k)); [by apply Hk|].
  intros kv. apply pure_as_bind; [by apply Hv|].
  intros vv. destruct kv; try apply pure_as_raise. by apply IH.
Qed.

(** Evaluating a literal changes nothing and gives the same result in
    every state of every runtime. *)
Lemma literal_pure e (w : world) :
  is_literal e = true → eval e w = (literal_result e, w).
Proof.
  intros Hlit. revert e Hlit w.
  refine (expr_induction (λ e, is_literal e = true → pure_as (eval e) (eval e))
            _ _ _ _ _ _); try done.
  - intros elts IH Hlit w. rewrite eval_EList.
    apply pure_as_bind; [by apply eval_elts_pure|]. intros vs. apply pure_as_ret.
  - intros items IH Hlit w. rewrite eval_EDict.
    apply pure_as_bind; [by apply eval_items_pure|]. intros d. apply pure_as_ret.
Qed.

End Purity.

(** ** Checking the shape *)

Lemma check_schema_conforms d schema :
  check_schema d schema = true ↔ conforms d schema.
Proof.
  unfold check_schema, conforms.
  rewrite andb_true_iff, bool_decide_eq_true, forallb_forall.
  apply and_iff_compat_l. split.
  - intros H k t Hin. apply list_elem_of_In, H in Hin. cbn [fst snd] in Hin.
    destruct (d !! k) as [v|]; [|done]. by exists v.
  - intros H [k t] Hin. apply list_elem_of_In, H in Hin as (v & Hk & Hv).
    cbn [fst snd]. by rewrite Hk.
Qed.

(** ** The loader never refuses an installable module *)

Lemma load_files_not_refused h loaded paths : load_files h loaded paths ≠ Refused.
Proof.
  revert loaded. induction paths as [|p paths IH]; intros loaded; simpl; [done|].
  case_decide; [apply IH|done].
Qed.

(** The loader refuses exactly when [installable] is false. *)
Lemma loader_refused h d :
  loader h d = Refused ↔ get_bool d "installable" = Some false.
Proof.
  unfold loader. destruct (get_bool d "installable") as [[]|]; [|done..].
  split; [|done].
  destruct (get_strs d "depends") as [deps|], (get_strs d "data") as [data|];
    try done.
  destruct (list_find _ deps) as [[? ?]|]; [done|].
  intros H. by apply load_files_not_refused in H.
Qed.

(** With every file present, the files are loaded in the listed order. *)
Lemma load_files_present h loaded paths :
  Forall (λ p, p ∈ files h) paths →
  load_files h loaded paths = Loaded (loaded ++ paths).
Proof.
  intros Hall. revert loaded.
  induction Hall as [|p paths Hp _ IH]; intros loaded; simpl.
  - by rewrite app_nil_r.
  - rewrite decide_True by done. by rewrite IH, <-app_assoc.
Qed.

(** A missing file stops the load at the files listed before it. *)
Lemma load_files_missing h loaded before p after :
  Forall (λ q, q ∈ files h) before → p ∉ files h →
  load_files h loaded (before ++ p :: after) = MissingFile p (loaded ++ before).
Proof.
  intros Hall Hp. revert loaded.
  induction Hall as [|q before Hq _ IH]; intros loaded; simpl.
  - rewrite decide_False by done. by rewrite app_nil_r.
  - rewrite decide_True by done. by rewrite IH, <-app_assoc.
Qed.

(** A refused module has none of its files loaded. *)
Lemma refused_loads_nothing h d : loader h d = Refused → loaded_files (loader h d) = [].
Proof. by intros ->. Qed.

(** ** The lifecycle never changes the descriptor *)

Lemma lifecycle_destroyed evs : lifecycle evs None = None.
Proof. induction evs as [|[] evs IH]; simpl; auto. Qed.

Lemma lifecycle_unchanged evs d :
  lifecycle evs (Some d) = Some d ∨ lifecycle evs (Some d) = None.
Proof.
  induction evs as [|[] evs IH]; simpl; auto using lifecycle_destroyed.
Qed.

Lemma lifecycle_preserves (P : gmap string value → Prop) evs d :
  P d → while_defined P (lifecycle evs (Some d)).
Proof. intros HP. by destruct (lifecycle_unchanged evs d) as [-> | ->]. Qed.

(** ** The descriptor *)

Example manifest_is_its_items : manifest = list_to_map manifest_items.
Proof. vm_compute. reflexivity. Qed.

Example manifest_evaluates `{Runtime world} (w : world) :
  eval manifest_src w = (inr (VDict manifest), w).
Proof. reflexivity. Qed.

Example manifest_loads :
  loader (Host {[ "sale"; "account"; "mail"; "web" ]}
               {[ "views/sale_order_report.xml"; "views/quotation_template.xml";
                  "data/email_template_data.xml"; "views/email_layout_override.xml" ]})
    manifest
  = Loaded [ "views/sale_order_report.xml"; "views/quotation_template.xml";
             "data/email_template_data.xml"; "views/email_layout_override.xml" ].
Proof. vm_compute. reflexivity. Qed.

Example manifest_needs_account :
  loader (Host {[ "sale"; "mail"; "web" ]} ∅) manifest = UnresolvedDependency "account".
Proof. vm_compute. reflexivity. Qed.

Lemma manifest_installable : get_bool manifest "installable" = Some true.
Proof. reflexivity. Qed.

Lemma manifest_depends : get_strs manifest "depends" = Some ["sale"; "account"; "mail"].
Proof. reflexivity. Qed.

Lemma manifest_data :
  get_strs manifest "data"
  = Some [ "views/sale_order_report.xml"; "views/quotation_template.xml";
           "data/email_template_data.xml"; "views/email_layout_override.xml" ].
Proof. reflexivity. Qed.

Lemma manifest_version : version_components manifest = Some ["18"; "0"; "1"; "0"; "0"].
Proof. reflexivity. Qed.

(** C1: the descriptor has exactly the five attributes [name], [version],
    [depends], [data] and [installable]; [name] and [version] are strings,
    [depends] is a sequence of strings, [data] a sequence of relative-path
    strings and [installable] a boolean; there is no other attribute. *)
Theorem descriptor_has_the_five_typed_attributes :
  conforms manifest descriptor_schema ∧
  dom manifest = {[ "name"; "version"; "depends"; "data"; "installable" ]} ∧
  size manifest = 5.
Proof.
  split; [|split].
  - apply check_schema_conforms. vm_compute. reflexivity.
  - vm_compute. reflexivity.
  - vm_compute. reflexivity.
Qed.

(** C2: [depends] is exactly [["sale", "account", "mail"]], and [data] lists
    exactly the four paths [views/sale_order_report.xml],
    [views/quotation_template.xml], [data/email_template_data.xml] and
    [views/email_layout_override.xml], in this order. *)
Theorem depends_and_data_are_as_listed :
  manifest !! "depends" = Some (VList [VStr "sale"; VStr "account"; VStr "mail"]) ∧
  manifest !! "data"
  = Some (VList [ VStr "views/sale_order_report.xml";
                  VStr "views/quotation_template.xml";
                  VStr "data/email_template_data.xml";
                  VStr "views/email_layout_override.xml" ]) ∧
  (length <$> get_strs manifest "depends") = Some 3 ∧
  (length <$> get_strs manifest "data") = Some 4.
Proof. repeat split; reflexivity. Qed.

(** C3, as the claim states it, fails: the version string [18.0.1.0.0] does
    not consist of four dot-separated components. *)
Lemma version_has_not_four_components : ¬ has_components 4 manifest.
Proof.
  intros (cs & Hcs & Hlen). rewrite manifest_version in Hcs.
  injection Hcs as <-. discriminate Hlen.
Qed.

(** C3, amended: the version string consists of exactly five dot-separated
    components, [18], [0], [1], [0] and [0], each a non-empty decimal
    numeral. *)
Theorem version_has_five_components :
  get_str manifest "version" = Some "18.0.1.0.0" ∧
  version_components manifest = Some ["18"; "0"; "1"; "0"; "0"] ∧
  has_components 5 manifest ∧
  Forall (λ c, Str.is_numeral c = true) ["18"; "0"; "1"; "0"; "0"].
Proof.
  split; [reflexivity|]. split; [reflexivity|]. split.
  - eexists. split; [apply manifest_version|reflexivity].
  - repeat constructor.
Qed.

(** C4: for every descriptor of the repository, the leading two
    dot-separated components of [version] are [18] and [0], and they match
    the version the host supports exactly when that version is [18.0]. *)
Theorem version_leads_with_host_series :
  Forall (λ addon,
      leading_two addon.2 = Some ["18"; "0"] ∧
      matches_host "18.0" addon.2 ∧
      ∀ supported, matches_host supported addon.2 ↔ supported = "18.0")
    custom_addons.
Proof.
  repeat constructor; simpl.
  - intros Hm. unfold matches_host in Hm.
    change (leading_two manifest) with (Some (Str.split "." "18.0")) in Hm.
    injection Hm as Hm. symmetry. by apply (split_inj ".").
  - by intros ->.
Qed.

(** C5: [installable] is a boolean, and it is true; so the loader, which
    refuses a module exactly when its [installable] is false and then loads
    none of its data, never refuses this one. *)
Theorem installable_so_never_refused :
  manifest !! "installable" = Some (VBool true) ∧
  ∀ h, loader h manifest ≠ Refused.
Proof.
  split; [reflexivity|]. intros h Href.
  apply loader_refused in Href.
  rewrite manifest_installable in Href. discriminate Href.
Qed.

(** C6: the [name] of every descriptor of the repository is a non-empty
    string, here [Sale Order Label Override]; and since no event of its
    lifecycle writes the descriptor, it is the same descriptor, with that
    name, for as long as it is defined. *)
Theorem name_is_nonempty_throughout :
  Forall (λ addon,
      has_nonempty_name addon.2 ∧
      ∀ evs,
        (lifecycle evs (Some addon.2) = Some addon.2 ∨
         lifecycle evs (Some addon.2) = None) ∧
        while_defined has_nonempty_name (lifecycle evs (Some addon.2)))
    custom_addons ∧
  manifest !! "name" = Some (VStr "Sale Order Label Override").
Proof.
  assert (has_nonempty_name manifest) as Hname.
  { exists "Sale Order Label Override". split; [reflexivity|discriminate]. }
  split; [|reflexivity]. apply Forall_cons_2; [|apply Forall_nil_2].
  split; [done|]. intros evs. split.
  - apply lifecycle_unchanged.
  - by apply lifecycle_preserves.
Qed.

(** C9: every entry of [depends] and of [data] is a non-empty string; the
    entries of each sequence are pairwise distinct; and every entry of
    [data] is a relative path with forward slashes only, with no leading
    [/] and no [..] component, ending in [.xml]. *)
Theorem entries_are_well_formed :
  ∃ depends data,
    get_strs manifest "depends" = Some depends ∧
    get_strs manifest "data" = Some data ∧
    Forall (λ name, name ≠ EmptyString) depends ∧
    Forall (λ path, path ≠ EmptyString) data ∧
    NoDup depends ∧
    NoDup data ∧
    Forall resource_path data.
Proof.
  eexists _, _. split; [apply manifest_depends|]. split; [apply manifest_data|].
  split; [by repeat constructor|]. split; [by repeat constructor|].
  split; [by_evaluation|]. split; [by_evaluation|].
  repeat apply Forall_cons_2; try apply Forall_nil_2;
    (split; [done|]); (split; [by_evaluation|]); (split; [reflexivity|]);
    (split; [by_evaluation|reflexivity]).
Qed.

(** C10: the manifest is one literal, with no name and no call in it;
    evaluating it changes nothing, whatever the state and the runtime, and
    any two evaluations give the same descriptor. *)
Theorem manifest_is_a_pure_literal :
  is_literal manifest_src = true ∧
  (∀ world (R : Runtime world) (w : world),
      eval manifest_src w = (inr (VDict manifest), w)) ∧
  (∀ world1 (R1 : Runtime world1) (w1 : world1)
     world2 (R2 : Runtime world2) (w2 : world2),
      (eval manifest_src w1).1 = (eval manifest_src w2).1).
Proof.
  assert (is_literal manifest_src = true) as Hlit by reflexivity.
  split; [done|]. split.
  - intros world R w. by rewrite literal_pure.
  - intros world1 R1 w1 world2 R2 w2. by rewrite !literal_pure.
Qed.

(** ** What the display holds *)

(** Inserting the items from left to right builds the map of the items
    read from right to left, the first of two items with one key giving
    way to the second. *)
Lemma dict_of_items_reverse items : dict_of_items items = list_to_map (reverse items).
Proof.
  unfold dict_of_items, list_to_map. generalize (∅ : gmap string value).
  induction items as [|kv items IH]; intros d; [done|].
  rewrite reverse_cons, foldr_app. simpl. by rewrite IH.
Qed.

(** X1: a dict display whose keys are pairwise distinct denotes a dict that
    holds exactly the items written: a key maps to a value exactly when the
    display lists that pair, and the dict has as many entries as the
    display has items. *)
Theorem display_with_distinct_keys (items : list (string * value)) :
  NoDup items.*1 →
  (∀ k v, dict_of_items items !! k = Some v ↔ (k, v) ∈ items) ∧
  size (dict_of_items items) = length items.
Proof.
  intros Hkeys. rewrite dict_of_items_reverse.
  assert (NoDup (reverse items).*1) as Hrev.
  { by rewrite fmap_reverse, reverse_Permutation. }
  split.
  - intros k v. by rewrite <-elem_of_list_to_map, elem_of_reverse.
  - by rewrite map_size_list_to_map, length_reverse.
Qed.

(** The display of [__manifest__.py] is such a display: none of its five
    keys is written twice, so no item of the file is overridden. *)
Lemma display_with_distinct_keys_witness :
  NoDup manifest_items.*1 ∧
  (∀ k v, manifest !! k = Some v ↔ (k, v) ∈ manifest_items) ∧
  size manifest = length manifest_items.
Proof.
  assert (NoDup manifest_items.*1) as Hkeys by by_evaluation.
  split; [exact Hkeys|]. exact (display_with_distinct_keys manifest_items Hkeys).
Defined.

(** X2: no descriptor of the repository names a module of the repository
    in [depends]: the module does not depend on itself, and every
    dependency is left to the host to resolve. *)
Theorem no_dependency_is_packaged :
  Forall (λ addon,
      ∃ depends,
        get_strs addon.2 "depends" = Some depends ∧
        Forall (λ name, name ∉ custom_addons.*1) depends)
    custom_addons.
Proof.
  apply Forall_cons_2; [|apply Forall_nil_2].
  eexists. split; [apply manifest_depends|].
  repeat apply Forall_cons_2; try apply Forall_nil_2; by_evaluation.
Qed.
